(** * The CSR auto-approval controller (pkg/controller/csr/csr_controller.go)

    A shallow embedding of the controller that approves the certificate
    signing requests of bootstrapping managed clusters, and the properties
    its description states about it.

    Go values are modelled as follows:
    - [string] is a Rocq [string]; [==] on strings is equality of the byte
      sequences;
    - a [map[string]string] is a [gmap string string] (the nil map is [∅]);
      ranging over it visits the entries in an unspecified order;
    - a slice is an [option (list _)], [None] being the nil slice;
    - a pointer or interface that may be nil is an [option];
    - an [error] result is an [option error], [None] being nil;
    - the calls to the API server are recorded, in order, in a trace. *)

From Stdlib Require Import ZArith Ascii.
From stdpp Require Import gmap strings list fin_maps.

Open Scope string_scope.
Open Scope list_scope.

(** ** Kubernetes objects *)

(** metav1.Time, as seconds since the epoch. *)
Definition Time := Z.

(** certificatesv1beta1.RequestConditionType is a string type; these are its
    two constants. *)
Definition CertificateApproved : string := "Approved".
Definition CertificateDenied : string := "Denied".

Record CertificateSigningRequestCondition := {
  Type_ : string;
  Reason : string;
  Message : string;
  LastUpdateTime : Time
}.

Record CertificateSigningRequest := {
  Name : string;
  Labels : gmap string string;
  DeletionTimestamp : option Time;
  Username : string;                       (* Spec.Username *)
  Conditions : option (list CertificateSigningRequestCondition)
                                           (* Status.Conditions *)
}.

(** clusterv1.ManagedCluster: the controller reads none of its fields. *)
Record ManagedCluster := { ClusterName : string }.

Record NamespacedName := { Namespace : string; KeyName : string }.

(** reconcile.Request and reconcile.Result *)
Definition Request := NamespacedName.
Record Result := { Requeue : bool; RequeueAfter : Z }.
Definition Result0 : Result := {| Requeue := false; RequeueAfter := 0 |}.

(** Errors of the API machinery; [errors.IsNotFound] recognises the first. *)
Inductive error :=
| StatusNotFound
| StatusConflict
| StatusOther (msg : string).

Definition IsNotFound (err : error) : bool :=
  match err with StatusNotFound => true | _ => false end.

Inductive result (A : Type) :=
| Ok (a : A)
| Err (err : error).
Arguments Ok {A} a.
Arguments Err {A} err.

(** The elements of a slice; the nil slice has none. *)
Definition elems {A} (s : option (list A)) : list A := default [] s.

(** Go's [append(s, x)]. *)
Definition append {A} (s : option (list A)) (x : A) : option (list A) :=
  Some (elems s ++ [x]).

(** ** Constants *)

Definition userNameSignature : string := "system:serviceaccount:%s:%s-bootstrap-sa".
Definition clusterLabel : string := "open-cluster-management.io/cluster-name".

(** [fmt.Sprintf] for formats whose only verb is [%s], applied to strings:
    each [%s] is replaced by the next operand, everything else is copied.
    Other verbs do not occur in this package and are not interpreted. *)
Fixpoint Sprintf (format : string) (args : list string) : string :=
  match format with
  | EmptyString => EmptyString
  | String c rest =>
      if Ascii.eqb c "%"%char then
        match rest with
        | String v rest' =>
            if Ascii.eqb v "s"%char then
              match args with
              | a :: args' => a +:+ Sprintf rest' args'
              | [] => "%!s(MISSING)" +:+ Sprintf rest' []
              end
            else String c (Sprintf rest args)
        | EmptyString => "%!(NOVERB)"
        end
      else String c (Sprintf rest args)
  end.

(** ** The eligibility filter *)

(** The body of the loop of [getClusterName], and the loop over the entries
    in the order [kvs] in which the map happens to be visited. *)
Definition getClusterName_step (clusterName : string) (kv : string * string) : string :=
  if String.eqb kv.1 clusterLabel then kv.2 else clusterName.

Definition getClusterName_range (kvs : list (string * string)) : string :=
  fold_left getClusterName_step kvs "".

Definition getClusterName (csr : CertificateSigningRequest) : string :=
  getClusterName_range (map_to_list (Labels csr)).

Fixpoint getApprovalType_range (cs : list CertificateSigningRequestCondition) : string :=
  match cs with
  | [] => ""
  | c :: cs' =>
      if String.eqb (Type_ c) CertificateApproved || String.eqb (Type_ c) CertificateDenied
      then Type_ c
      else getApprovalType_range cs'
  end.

Definition getApprovalType (csr : CertificateSigningRequest) : string :=
  match Conditions csr with
  | None => ""
  | Some cs => getApprovalType_range cs
  end.

Definition validUsername (csr : CertificateSigningRequest) (clusterName : string) : bool :=
  String.eqb (Username csr) (Sprintf userNameSignature [clusterName; clusterName]).

Definition csrPredicate (csr : CertificateSigningRequest) : bool :=
  let clusterName := getClusterName csr in
  negb (String.eqb clusterName "") &&
  String.eqb (getApprovalType csr) "" &&
  validUsername csr clusterName.

(** The events of the watch, and the filter [add] installs on it: it sets
    [UpdateFunc] and [CreateFunc]; a [predicate.Funcs] lets the events whose
    function is not set through. *)
Inductive WatchEvent :=
| CreateEvent (Object : CertificateSigningRequest)
| UpdateEvent (ObjectOld ObjectNew : CertificateSigningRequest)
| DeleteEvent (Object : CertificateSigningRequest)
| GenericEvent (Object : CertificateSigningRequest).

Definition csrPredicateFuncs (e : WatchEvent) : bool :=
  match e with
  | UpdateEvent _ ObjectNew => csrPredicate ObjectNew
  | CreateEvent Object => csrPredicate Object
  | DeleteEvent _ | GenericEvent _ => true
  end.

(** ** The clients and the reconciler *)

(** The two reads the controller does through [client.Client], and the one
    write it does through the certificates client of [kubernetes.Interface].
    Their answers are those of the API server, whatever they are. *)
Record Client := {
  GetCSR : NamespacedName → result CertificateSigningRequest;
  GetManagedCluster : NamespacedName → result ManagedCluster
}.

Record KubeInterface := {
  UpdateApproval : CertificateSigningRequest → result CertificateSigningRequest
}.

Record Manager := { GetClient : Client }.

(** [kubeClient] is an interface value: [None] is nil. The [scheme] field is
    never read. *)
Record ReconcileCSR := {
  client : Client;
  kubeClient : option KubeInterface
}.

(** [NewDefaultKubeClient] stands for the outcome of
    [libgoclient.NewDefaultKubeClient("")]. *)
Definition newReconciler (mgr : Manager) (NewDefaultKubeClient : result KubeInterface)
  : ReconcileCSR :=
  let kubeClient :=
    match NewDefaultKubeClient with
    | Ok kubeClient => Some kubeClient
    | Err _ => None
    end in
  {| client := GetClient mgr; kubeClient := kubeClient |}.

(** What one run does to the outside, in order. *)
Inductive Call :=
| LogInfo (msg : string)
| ClientGetCSR (key : NamespacedName) (res : result CertificateSigningRequest)
| ClientGetManagedCluster (key : NamespacedName) (res : result ManagedCluster)
| KubeUpdateApproval (csr : CertificateSigningRequest)
                     (res : result CertificateSigningRequest).

(** A Go function body: it goes on with a value, returns early, or panics;
    in each case it has made some calls. *)
Inductive flow (A : Type) :=
| Next (a : A)
| Return (res : Result) (err : option error)
| Panic.
Arguments Next {A} a.
Arguments Return {A} res err.
Arguments Panic {A}.

Definition Go (A : Type) : Type := list Call * flow A.

Definition go_ret {A} (a : A) : Go A := ([], Next a).

Definition go_bind {A B} (m : Go A) (k : A → Go B) : Go B :=
  match m with
  | (t, Next a) => let '(t', f) := k a in (t ++ t', f)
  | (t, Return res err) => (t, Return res err)
  | (t, Panic) => (t, Panic)
  end.

Definition call (c : Call) : Go unit := ([c], Next tt).
Definition return_ {A} (res : Result) (err : option error) : Go A := ([], Return res err).
Definition panic {A} : Go A := ([], Panic).

Notation "'do' x <- m ; k" := (go_bind m (fun x => k))
  (at level 10, x name, m at level 100, k at level 200).
Notation "m ;; k" := (go_bind m (fun _ => k))
  (at level 100, k at level 200, right associativity).

(** The condition [Reconcile] appends. *)
Definition approvedCondition (now : Time) : CertificateSigningRequestCondition :=
  {| Type_ := CertificateApproved;
     Reason := "AutoApprovedByCSRController";
     Message := "The managedcluster-import-controller auto approval automatically approved this CSR";
     LastUpdateTime := now |}.

Definition setConditions (csr : CertificateSigningRequest)
    (cs : option (list CertificateSigningRequestCondition)) : CertificateSigningRequest :=
  {| Name := Name csr; Labels := Labels csr; DeletionTimestamp := DeletionTimestamp csr;
     Username := Username csr; Conditions := cs |}.

(** [Reconcile]; [now] is what [metav1.Now()] reads. *)
Definition Reconcile (now : Time) (r : ReconcileCSR) (request : Request) : Go Empty_set :=
  call (LogInfo "Reconciling CSR") ;;
  do instance <-
    (let got := GetCSR (client r) request in
     call (ClientGetCSR request got) ;;
     match got with
     | Err err =>
         if IsNotFound err then return_ Result0 None
         else return_ Result0 (Some err)
     | Ok instance => go_ret instance
     end) ;
  match DeletionTimestamp instance with
  | Some _ => return_ Result0 None
  | None => go_ret tt
  end ;;
  let clusterName := getClusterName instance in
  let key := {| Namespace := ""; KeyName := clusterName |} in
  let got := GetManagedCluster (client r) key in
  call (ClientGetManagedCluster key got) ;;
  match got with
  | Err err => call (LogInfo "Warning") ;; return_ Result0 None
  | Ok _ =>
      call (LogInfo "Approving CSR") ;;
      let instance :=
        match Conditions instance with
        | None => setConditions instance (Some [])
        | Some _ => instance
        end in
      let instance :=
        setConditions instance (append (Conditions instance) (approvedCondition now)) in
      match kubeClient r with
      | None => panic
      | Some kube =>
          let sent := UpdateApproval kube instance in
          call (KubeUpdateApproval instance sent) ;;
          match sent with
          | Err err => return_ Result0 (Some err)
          | Ok _ => return_ Result0 None
          end
      end
  end.

(** How a run ends. *)
Inductive outcome :=
| Returned (res : Result) (err : option error)
| Panicked.

Definition outcome_of (f : flow Empty_set) : outcome :=
  match f with
  | Next a => match a with end
  | Return res err => Returned res err
  | Panic => Panicked
  end.

Definition ends (run : Go Empty_set) : outcome := outcome_of run.2.
Definition calls (run : Go Empty_set) : list Call := run.1.

(** The objects a run submits as approval updates, in order. *)
Definition submitted (t : list Call) : list CertificateSigningRequest :=
  omap (λ c, match c with KubeUpdateApproval csr _ => Some csr | _ => None end) t.

Definition success : outcome := Returned Result0 None.

(** The requests the API server holds, by name. An approval update the
    server accepts stores the object it answers with; no other call of the
    controller writes. *)
Definition store_call (s : gmap string CertificateSigningRequest) (c : Call)
  : gmap string CertificateSigningRequest :=
  match c with
  | KubeUpdateApproval _ (Ok stored) => <[Name stored := stored]> s
  | _ => s
  end.

Definition store_after (s : gmap string CertificateSigningRequest) (t : list Call)
  : gmap string CertificateSigningRequest :=
  fold_left store_call t s.

(** ** Vocabulary of the properties *)

(** The identity a bootstrap agent of [clusterName] requests with. *)
Definition bootstrapIdentity (clusterName : string) : string :=
  "system:serviceaccount:" +:+ clusterName +:+ ":" +:+ clusterName +:+ "-bootstrap-sa".

Definition terminalType (t : string) : Prop :=
  t = CertificateApproved ∨ t = CertificateDenied.

(** The request carries a condition of type Approved or Denied. *)
Definition terminal (csr : CertificateSigningRequest) : Prop :=
  ∃ c, c ∈ elems (Conditions csr) ∧ terminalType (Type_ c).

(** The key under which [Reconcile] looks the cluster of [csr] up. *)
Definition registryKey (csr : CertificateSigningRequest) : NamespacedName :=
  {| Namespace := ""; KeyName := getClusterName csr |}.

(** A run wrote nothing: no approval update was submitted, and whatever the
    server held it still holds. *)
Definition zero_writes (run : Go Empty_set) : Prop :=
  submitted (calls run) = [] ∧ ∀ s, store_after s (calls run) = s.

(** ** The five ways through [Reconcile] *)

(** The object [Reconcile] submits for the request [csr] it fetched. *)
Definition approve (now : Time) (csr : CertificateSigningRequest) : CertificateSigningRequest :=
  setConditions csr (Some (elems (Conditions csr) ++ [approvedCondition now])).

Definition error_of {A} (res : result A) : option error :=
  match res with Ok _ => None | Err err => Some err end.

Inductive Reconcile_path (now : Time) (r : ReconcileCSR) (request : Request)
  : Go Empty_set → Prop :=
| path_fetch_failed err :
    GetCSR (client r) request = Err err →
    Reconcile_path now r request
      ([LogInfo "Reconciling CSR"; ClientGetCSR request (Err err)],
       Return Result0 (if IsNotFound err then None else Some err))
| path_deleted csr t :
    GetCSR (client r) request = Ok csr →
    DeletionTimestamp csr = Some t →
    Reconcile_path now r request
      ([LogInfo "Reconciling CSR"; ClientGetCSR request (Ok csr)],
       Return Result0 None)
| path_unregistered csr err :
    GetCSR (client r) request = Ok csr →
    DeletionTimestamp csr = None →
    GetManagedCluster (client r) (registryKey csr) = Err err →
    Reconcile_path now r request
      ([LogInfo "Reconciling CSR"; ClientGetCSR request (Ok csr);
        ClientGetManagedCluster (registryKey csr) (Err err); LogInfo "Warning"],
       Return Result0 None)
| path_nil_client csr cluster :
    GetCSR (client r) request = Ok csr →
    DeletionTimestamp csr = None →
    GetManagedCluster (client r) (registryKey csr) = Ok cluster →
    kubeClient r = None →
    Reconcile_path now r request
      ([LogInfo "Reconciling CSR"; ClientGetCSR request (Ok csr);
        ClientGetManagedCluster (registryKey csr) (Ok cluster);
        LogInfo "Approving CSR"],
       Panic)
| path_submitted csr cluster kube :
    GetCSR (client r) request = Ok csr →
    DeletionTimestamp csr = None →
    GetManagedCluster (client r) (registryKey csr) = Ok cluster →
    kubeClient r = Some kube →
    Reconcile_path now r request
      ([LogInfo "Reconciling CSR"; ClientGetCSR request (Ok csr);
        ClientGetManagedCluster (registryKey csr) (Ok cluster);
        LogInfo "Approving CSR";
        KubeUpdateApproval (approve now csr) (UpdateApproval kube (approve now csr))],
       Return Result0 (error_of (UpdateApproval kube (approve now csr)))).

(** A fixed world for the examples: the registry knows the cluster alpha
    only, the server holds one request and accepts every approval. *)
Module Scenario.

Definition alpha : ManagedCluster := {| ClusterName := "alpha" |}.

Definition registry (key : NamespacedName) : result ManagedCluster :=
  if String.eqb (KeyName key) "alpha" then Ok alpha else Err StatusNotFound.

Definition serving (csr : CertificateSigningRequest) : Client :=
  {| GetCSR := λ key,
       if String.eqb (KeyName key) (Name csr) then Ok csr else Err StatusNotFound;
     GetManagedCluster := registry |}.

Definition accepting : KubeInterface := {| UpdateApproval := λ csr, Ok csr |}.

Definition refusing : KubeInterface := {| UpdateApproval := λ _, Err StatusConflict |}.

Definition reconciler (csr : CertificateSigningRequest) : ReconcileCSR :=
  {| client := serving csr; kubeClient := Some accepting |}.

(** What the clock reads during the runs of the examples. *)
Definition clock : Time := 9%Z.

Definition request : Request := {| Namespace := ""; KeyName := "csr-1" |}.

Definition csr1 (username : string) (deleted : option Time)
    (conds : option (list CertificateSigningRequestCondition)) : CertificateSigningRequest :=
  {| Name := "csr-1";
     Labels := {[ clusterLabel := "alpha" ]};
     DeletionTimestamp := deleted;
     Username := username;
     Conditions := conds |}.

Definition pending : CertificateSigningRequest :=
  csr1 "system:serviceaccount:alpha:alpha-bootstrap-sa" None None.

Definition impostor : CertificateSigningRequest :=
  csr1 "system:serviceaccount:beta:alpha-bootstrap-sa" None None.

Definition leaving : CertificateSigningRequest :=
  csr1 "system:serviceaccount:alpha:alpha-bootstrap-sa" (Some 7%Z) None.

Definition approved : CertificateSigningRequest :=
  csr1 "system:serviceaccount:alpha:alpha-bootstrap-sa" None
       (Some [approvedCondition 5%Z]).

(** Denied earlier, and of a cluster the registry does not know. *)
Definition denied_stranger : CertificateSigningRequest :=
  {| Name := "csr-1";
     Labels := {[ clusterLabel := "gamma" ]};
     DeletionTimestamp := None;
     Username := "system:serviceaccount:gamma:gamma-bootstrap-sa";
     Conditions := Some [ {| Type_ := CertificateDenied; Reason := "Manual";
                             Message := "denied by an administrator";
                             LastUpdateTime := 3%Z |} ] |}.

(** Asking with the identity of another cluster, and on its way out. *)
Definition impostor_leaving : CertificateSigningRequest :=
  csr1 "system:serviceaccount:beta:alpha-bootstrap-sa" (Some 7%Z) None.

(** The reconciler [newReconciler] builds when no kube client can be made. *)
Definition clientless (csr : CertificateSigningRequest) : ReconcileCSR :=
  newReconciler {| GetClient := serving csr |} (Err (StatusOther "no configuration")).

Definition unlabeled : CertificateSigningRequest :=
  {| Name := "csr-1"; Labels := ∅; DeletionTimestamp := None;
     Username := "system:serviceaccount:alpha:alpha-bootstrap-sa";
     Conditions := None |}.

End Scenario.

(** ** Registration with the manager *)

(** The controller [controller.New] makes: [add] only starts one watch on
    it, of the signing requests, enqueueing the object of each event the
    filter lets through. *)
Record Controller := { Watch : (WatchEvent → bool) → option error }.

(** What [add] asks of the controller runtime, in order. *)
Inductive SetupCall :=
| CallControllerNew (name : string) (r : ReconcileCSR)
| CallWatch.

(** [add]; [New] stands for [controller.New], given the name, the manager
    and the reconciler of the options. *)
Definition add (New : string → Manager → ReconcileCSR → result Controller)
    (mgr : Manager) (r : ReconcileCSR) : list SetupCall * option error :=
  match New "csr-controller" mgr r with
  | Err err => ([CallControllerNew "csr-controller" r], Some err)
  | Ok c =>
      match Watch c csrPredicateFuncs with
      | Some err => ([CallControllerNew "csr-controller" r; CallWatch], Some err)
      | None => ([CallControllerNew "csr-controller" r; CallWatch], None)
      end
  end.

Definition Add (New : string → Manager → ReconcileCSR → result Controller)
    (mgr : Manager) (NewDefaultKubeClient : result KubeInterface)
  : list SetupCall * option error :=
  add New mgr (newReconciler mgr NewDefaultKubeClient).

(** Runtimes for the examples: one that makes a controller whose watch
    starts, one whose watch does not, one that makes no controller. *)
Module Setup.

Definition willing (name : string) (mgr : Manager) (r : ReconcileCSR) : result Controller :=
  Ok {| Watch := λ _, None |}.

Definition deaf (name : string) (mgr : Manager) (r : ReconcileCSR) : result Controller :=
  Ok {| Watch := λ _, Some (StatusOther "no informer") |}.

Definition unwilling (name : string) (mgr : Manager) (r : ReconcileCSR) : result Controller :=
  Err (StatusOther "no controller").

Definition manager : Manager := {| GetClient := Scenario.serving Scenario.pending |}.

End Setup.

(** The request [csr] with the labels [labels] instead of its own. *)
Definition withLabels (csr : CertificateSigningRequest) (labels : gmap string string)
  : CertificateSigningRequest :=
  {| Name := Name csr; Labels := labels; DeletionTimestamp := DeletionTimestamp csr;
     Username := Username csr; Conditions := Conditions csr |}.

(** Requests for the examples of the filter. *)
Module Filter.

(** Labelled with a zone besides its cluster. *)
Definition zoned : CertificateSigningRequest :=
  withLabels Scenario.pending (<["zone" := "eu"]> {[ clusterLabel := "alpha" ]}).

(** Denied first and approved afterwards. *)
Definition contested : CertificateSigningRequest :=
  setConditions Scenario.pending
    (Some [ {| Type_ := "Failed"; Reason := "Signer"; Message := "no signer";
               LastUpdateTime := 1%Z |};
            {| Type_ := CertificateDenied; Reason := "Manual"; Message := "denied";
               LastUpdateTime := 2%Z |};
            {| Type_ := CertificateApproved; Reason := "Manual"; Message := "approved";
               LastUpdateTime := 3%Z |} ]).

(** Labelled with the empty cluster name, and asking as its agent would. *)
Definition nameless : CertificateSigningRequest :=
  {| Name := "csr-1"; Labels := {[ clusterLabel := "" ]}; DeletionTimestamp := None;
     Username := "system:serviceaccount::-bootstrap-sa"; Conditions := None |}.

End Filter.

(** Membership of a call in the trace of one of the five ways. *)
Ltac trace_member H :=
  cbn in H;
  repeat (apply elem_of_cons in H as [H|H]; [try discriminate H|]);
  try (by apply elem_of_nil in H).

(** ** The eligibility filter: lemmas *)

Section Eligibility.

Implicit Types (csr : CertificateSigningRequest) (kvs : list (string * string)).
Implicit Types (cs : list CertificateSigningRequestCondition).

Lemma Sprintf_userNameSignature (a b : string) :
  Sprintf userNameSignature [a; b]
  = "system:serviceaccount:" +:+ a +:+ ":" +:+ b +:+ "-bootstrap-sa".
Proof. reflexivity. Qed.

Lemma validUsername_spec csr (clusterName : string) :
  validUsername csr clusterName = true ↔ Username csr = bootstrapIdentity clusterName.
Proof.
  unfold validUsername, bootstrapIdentity.
  rewrite Sprintf_userNameSignature. apply String.eqb_eq.
Qed.

(** Entries under other keys leave the variable of the loop alone. *)
Lemma getClusterName_range_skip kvs (acc : string) :
  clusterLabel ∉ kvs.*1 → fold_left getClusterName_step kvs acc = acc.
Proof.
  revert acc. induction kvs as [|[k v] kvs IH]; intros acc Hnot; [done|].
  cbn [fold_left]. rewrite fmap_cons, not_elem_of_cons in Hnot.
  destruct Hnot as [Hk Hrest]. unfold getClusterName_step at 2. cbn [fst snd].
  destruct (String.eqb_spec k clusterLabel) as [->|_]; [by destruct Hk|].
  by apply IH.
Qed.

(** When no key occurs twice, the loop ends with the value under the label. *)
Lemma getClusterName_range_hit kvs (acc v : string) :
  NoDup kvs.*1 → (clusterLabel, v) ∈ kvs →
  fold_left getClusterName_step kvs acc = v.
Proof.
  revert acc. induction kvs as [|[k x] kvs IH]; intros acc Hnd Hin.
  - by apply elem_of_nil in Hin.
  - rewrite fmap_cons in Hnd. apply NoDup_cons in Hnd as [Hfresh Hnd].
    cbn [fold_left]. unfold getClusterName_step at 2. cbn [fst snd] in *.
    apply elem_of_cons in Hin as [Heq|Hin].
    + injection Heq as <- <-. rewrite String.eqb_refl.
      by apply getClusterName_range_skip.
    + destruct (String.eqb_spec k clusterLabel) as [->|_].
      * destruct Hfresh. apply list_elem_of_fmap. by exists (clusterLabel, v).
      * by apply IH.
Qed.

(** In whatever order the labels are visited, the loop computes the keyed
    lookup, the empty string standing for a missing label. *)
Lemma getClusterName_any_order (m : gmap string string) kvs :
  kvs ≡ₚ map_to_list m →
  getClusterName_range kvs = default "" (m !! clusterLabel).
Proof.
  intros Hperm. unfold getClusterName_range.
  destruct (m !! clusterLabel) as [v|] eqn:Hm; cbn [default].
  - apply getClusterName_range_hit.
    + rewrite Hperm. apply NoDup_fst_map_to_list.
    + rewrite Hperm. by apply elem_of_map_to_list.
  - apply getClusterName_range_skip. rewrite Hperm.
    intros ([k v] & Hk & Hin)%list_elem_of_fmap. cbn in Hk. subst k.
    apply elem_of_map_to_list in Hin. congruence.
Qed.

Lemma getClusterName_lookup csr :
  getClusterName csr = default "" (Labels csr !! clusterLabel).
Proof. by apply getClusterName_any_order. Qed.

Lemma terminalType_eqb (t : string) :
  String.eqb t CertificateApproved || String.eqb t CertificateDenied = true
  ↔ terminalType t.
Proof.
  unfold terminalType. rewrite orb_true_iff, !String.eqb_eq. tauto.
Qed.

Lemma terminalType_nonempty (t : string) : terminalType t → t ≠ "".
Proof. by intros [-> | ->]. Qed.

(** The scan answers the empty string exactly when it meets neither type. *)
Lemma getApprovalType_range_empty cs :
  getApprovalType_range cs = "" ↔ Forall (λ c, ¬ terminalType (Type_ c)) cs.
Proof.
  induction cs as [|c cs IH]; cbn [getApprovalType_range].
  - split; [constructor | done].
  - destruct (String.eqb (Type_ c) CertificateApproved
              || String.eqb (Type_ c) CertificateDenied) eqn:Hc.
    + apply terminalType_eqb in Hc. split.
      * intros Hempty. by apply terminalType_nonempty in Hc.
      * intros Hall. apply Forall_cons in Hall as [Hno _]. by destruct Hno.
    + rewrite IH, Forall_cons. split; [|tauto].
      intros Hall. split; [|done].
      intros Hc'%terminalType_eqb. congruence.
Qed.

(** The scan answers the type of the first condition of either type. *)
Lemma getApprovalType_range_first cs1 c cs2 :
  Forall (λ c, ¬ terminalType (Type_ c)) cs1 → terminalType (Type_ c) →
  getApprovalType_range (cs1 ++ c :: cs2) = Type_ c.
Proof.
  intros Hall Hc. induction Hall as [|c1 cs1 Hc1 _ IH]; cbn.
  - apply terminalType_eqb in Hc. by rewrite Hc.
  - destruct (String.eqb (Type_ c1) CertificateApproved
              || String.eqb (Type_ c1) CertificateDenied) eqn:E; [|done].
    apply terminalType_eqb in E. by destruct Hc1.
Qed.

Lemma getApprovalType_empty csr :
  getApprovalType csr = "" ↔ ¬ terminal csr.
Proof.
  unfold getApprovalType, terminal, elems.
  destruct (Conditions csr) as [cs|]; cbn [default].
  - rewrite getApprovalType_range_empty, Forall_forall. split.
  + intros Hall (c & Hin & Hc). exact (Hall c Hin Hc).
  + intros Hno c Hin Hc. apply Hno. by exists c.
  - split; [|done]. intros _ (c & Hin & _). by apply elem_of_nil in Hin.
Qed.

Lemma csrPredicate_spec csr :
  csrPredicate csr = true ↔
    getClusterName csr ≠ "" ∧ ¬ terminal csr
    ∧ Username csr = bootstrapIdentity (getClusterName csr).
Proof.
  unfold csrPredicate. cbv zeta.
  rewrite !andb_true_iff, negb_true_iff, validUsername_spec.
  rewrite String.eqb_neq, String.eqb_eq, getApprovalType_empty. tauto.
Qed.

Lemma csrPredicate_terminal csr : terminal csr → csrPredicate csr = false.
Proof.
  intros Ht. apply not_true_iff_false. rewrite csrPredicate_spec. tauto.
Qed.

Lemma csrPredicate_username csr :
  Username csr ≠ bootstrapIdentity (getClusterName csr) → csrPredicate csr = false.
Proof.
  intros Hu. apply not_true_iff_false. rewrite csrPredicate_spec. tauto.
Qed.

End Eligibility.

(** ** The reconciler: lemmas *)

Section Reconciler.

Variables (now : Time) (r : ReconcileCSR) (request : Request).

Lemma approve_instance (csr : CertificateSigningRequest) :
  (let instance :=
     match Conditions csr with
     | None => setConditions csr (Some [])
     | Some _ => csr
     end in
   setConditions instance (append (Conditions instance) (approvedCondition now)))
  = approve now csr.
Proof. unfold approve, append. by destruct csr as [? ? ? ? [cs|]]. Qed.

(** Every run takes one of the five ways. *)
Lemma Reconcile_run : Reconcile_path now r request (Reconcile now r request).
Proof.
  unfold Reconcile.
  destruct (GetCSR (client r) request) as [csr|err] eqn:Hcsr; cbn.
  2: { destruct (IsNotFound err) eqn:Hnf; cbn.
       - pose proof (path_fetch_failed now r request err Hcsr) as P.
         by rewrite Hnf in P.
       - pose proof (path_fetch_failed now r request err Hcsr) as P.
         by rewrite Hnf in P. }
  destruct (DeletionTimestamp csr) as [t|] eqn:Hdel; cbn.
  { by eapply path_deleted. }
  fold (registryKey csr).
  destruct (GetManagedCluster (client r) (registryKey csr)) as [cluster|err] eqn:Hreg; cbn.
  2: { by apply path_unregistered. }
  pose proof (approve_instance csr) as Happ. cbv zeta in Happ. rewrite Happ.
  destruct (kubeClient r) as [kube|] eqn:Hkube; cbn.
  2: { by eapply path_nil_client. }
  pose proof (path_submitted now r request csr cluster kube Hcsr Hdel Hreg Hkube) as P.
  by destruct (UpdateApproval kube (approve now csr)).
Qed.

End Reconciler.

Lemma store_after_reads (s : gmap string CertificateSigningRequest) (t : list Call) :
  submitted t = [] → store_after s t = s.
Proof.
  unfold store_after. revert s. induction t as [|c t IH]; intros s Hsub; [done|].
  destruct c; cbn in *; try by apply IH. discriminate.
Qed.

Lemma zero_writes_submitted (run : Go Empty_set) :
  submitted (calls run) = [] → zero_writes run.
Proof. intros Hsub. split; [done|]. intros s. by apply store_after_reads. Qed.

(** A run that submits nothing took one of the first four ways. *)
Lemma Reconcile_zero_writes_iff (now : Time) (r : ReconcileCSR) (request : Request) :
  zero_writes (Reconcile now r request) ↔
    (∃ err, GetCSR (client r) request = Err err)
    ∨ (∃ csr, GetCSR (client r) request = Ok csr ∧
         (DeletionTimestamp csr ≠ None
          ∨ (∃ err, GetManagedCluster (client r) (registryKey csr) = Err err)
          ∨ kubeClient r = None)).
Proof.
  split.
  - intros [Hsub _]. destruct (Reconcile_run now r request); cbn in Hsub;
      try discriminate; eauto 8.
    right. exists csr. split; [done|]. left. congruence.
  - intros Hcase. apply zero_writes_submitted.
    destruct (Reconcile_run now r request) as [| | | |csr cluster kube Hcsr Hdel Hreg Hkube];
      try reflexivity.
    destruct Hcase as [[err He]|(csr' & Hc & [Hd|[[err He]|Hk]])]; congruence.
Qed.

(** A run whose request is marked for deletion or whose cluster the registry
    does not yield stops before the approval. *)
Lemma Reconcile_stops_early (now : Time) (r : ReconcileCSR) (request : Request)
    (csr : CertificateSigningRequest) :
  GetCSR (client r) request = Ok csr →
  DeletionTimestamp csr ≠ None
    ∨ (∃ err, GetManagedCluster (client r) (registryKey csr) = Err err) →
  zero_writes (Reconcile now r request) ∧ ends (Reconcile now r request) = success.
Proof.
  intros Hcsr Hstop. split.
  - apply Reconcile_zero_writes_iff. right. exists csr. tauto.
  - destruct (Reconcile_run now r request) as
      [err He|csr' t Hc Hd|csr' err Hc Hd Hr|csr' cl Hc Hd Hr Hk|csr' cl k Hc Hd Hr Hk];
      try reflexivity; try congruence.
    + assert (csr' = csr) as -> by congruence.
      destruct Hstop as [Hdel|[err He]]; congruence.
    + assert (csr' = csr) as -> by congruence.
      destruct Hstop as [Hdel|[err He]]; congruence.
Qed.

(** With a kube client at hand, a live request of a registered cluster is
    approved: this is the fifth way. *)
Lemma Reconcile_approves (now : Time) (r : ReconcileCSR) (request : Request)
    (csr : CertificateSigningRequest) (cluster : ManagedCluster) (kube : KubeInterface) :
  GetCSR (client r) request = Ok csr →
  DeletionTimestamp csr = None →
  GetManagedCluster (client r) (registryKey csr) = Ok cluster →
  kubeClient r = Some kube →
  Reconcile now r request =
    ([LogInfo "Reconciling CSR"; ClientGetCSR request (Ok csr);
      ClientGetManagedCluster (registryKey csr) (Ok cluster);
      LogInfo "Approving CSR";
      KubeUpdateApproval (approve now csr) (UpdateApproval kube (approve now csr))],
     Return Result0 (error_of (UpdateApproval kube (approve now csr)))).
Proof.
  intros Hcsr Hdel Hreg Hkube.
  destruct (Reconcile_run now r request) as
    [err He|csr' t Hc Hd|csr' err Hc Hd Hr|csr' cl Hc Hd Hr Hk|csr' cl k Hc Hd Hr Hk];
    congruence.
Qed.

(** Without one, the same request makes the run panic. *)
Lemma Reconcile_panics_iff (now : Time) (r : ReconcileCSR) (request : Request) :
  ends (Reconcile now r request) = Panicked ↔
    kubeClient r = None
    ∧ ∃ csr cluster, GetCSR (client r) request = Ok csr
        ∧ DeletionTimestamp csr = None
        ∧ GetManagedCluster (client r) (registryKey csr) = Ok cluster.
Proof.
  split.
  - intros Hends. destruct (Reconcile_run now r request); try discriminate Hends.
    eauto 6.
  - intros (Hnil & csr & cluster & Hcsr & Hdel & Hreg).
    destruct (Reconcile_run now r request) as
      [err He|csr' t Hc Hd|csr' err Hc Hd Hr|csr' cl Hc Hd Hr Hk|csr' cl k Hc Hd Hr Hk];
      first [reflexivity | congruence].
Qed.

(** When a run returns an error: the request could not be read, for another
    reason than its absence, or the approval was refused. *)
Lemma Reconcile_error_iff (now : Time) (r : ReconcileCSR) (request : Request) (err : error) :
  ends (Reconcile now r request) = Returned Result0 (Some err) ↔
    (GetCSR (client r) request = Err err ∧ IsNotFound err = false)
    ∨ (∃ sent, KubeUpdateApproval sent (Err err) ∈ calls (Reconcile now r request)).
Proof.
  split.
  - intros Hends.
    destruct (Reconcile_run now r request) as
      [e He|csr t Hc Hd|csr e Hc Hd Hr|csr cl Hc Hd Hr Hk|csr cl k Hc Hd Hr Hk];
      try discriminate Hends.
    + left. cbn in Hends. destruct (IsNotFound e) eqn:Hnf; [discriminate|].
      by injection Hends as <-.
    + right. exists (approve now csr). cbn in Hends |- *.
      destruct (UpdateApproval k (approve now csr)) as [ok|e]; [discriminate|].
      injection Hends as <-. set_solver.
  - intros [[Hget Hnf]|[sent Hin]];
    destruct (Reconcile_run now r request) as
      [e He|csr t Hc Hd|csr e Hc Hd Hr|csr cl Hc Hd Hr Hk|csr cl k Hc Hd Hr Hk];
      try congruence; try (trace_member Hin; fail).
    + assert (e = err) as -> by congruence. cbn. by rewrite Hnf.
    + trace_member Hin. injection Hin as _ Hres. cbn. by rewrite <- Hres.
Qed.

(** Whenever a run returns, it asks for no requeue. *)
Lemma Reconcile_never_requeues (now : Time) (r : ReconcileCSR) (request : Request)
    (res : Result) (err : option error) :
  ends (Reconcile now r request) = Returned res err → res = Result0.
Proof.
  intros Hends. destruct (Reconcile_run now r request); cbn in Hends; congruence.
Qed.

(** ** The scenarios of the description *)

(** A pending request with the right identity, for the registered cluster
    alpha: one Approved condition is appended and submitted, with success. *)
Example scenario_alpha_approved :
  csrPredicate Scenario.pending = true
  ∧ submitted (calls (Reconcile Scenario.clock (Scenario.reconciler Scenario.pending) Scenario.request))
    = [setConditions Scenario.pending (Some [approvedCondition Scenario.clock])]
  ∧ ends (Reconcile Scenario.clock (Scenario.reconciler Scenario.pending) Scenario.request) = success.
Proof. by vm_compute. Qed.

(** The request is gone when the run starts: success, nothing written. *)
Example scenario_deleted_before_reconcile :
  Reconcile Scenario.clock (Scenario.reconciler Scenario.pending) {| Namespace := ""; KeyName := "csr-2" |}
  = ([LogInfo "Reconciling CSR";
      ClientGetCSR {| Namespace := ""; KeyName := "csr-2" |} (Err StatusNotFound)],
     Return Result0 None).
Proof. reflexivity. Qed.

(** ** The eligibility filter: properties *)

Lemma getApprovalType_elems (csr : CertificateSigningRequest) :
  getApprovalType csr = getApprovalType_range (elems (Conditions csr)).
Proof. unfold getApprovalType, elems. by destruct (Conditions csr). Qed.

Lemma getClusterName_nonempty (csr : CertificateSigningRequest) :
  getClusterName csr ≠ "" ↔ ∃ v, Labels csr !! clusterLabel = Some v ∧ v ≠ "".
Proof.
  rewrite getClusterName_lookup.
  destruct (Labels csr !! clusterLabel) as [v|]; cbn [default].
  - split; [eauto|]. by intros (? & [= <-] & ?).
  - split; [done|]. by intros (? & ? & ?).
Qed.

(** C4. The eligibility predicate [csrPredicate] answers true exactly when
    (1) the cluster-name label is present with a non-empty value, (2) no
    condition of the request has type Approved or Denied, and (3) the
    Username is, byte for byte, the bootstrap service-account identity of the
    labelled cluster. It is a total function whose answer is fixed by the
    labels, the conditions and the Username of the request it is given. *)
Theorem csrPredicate_eligible_iff (csr : CertificateSigningRequest) :
  (csrPredicate csr = true ↔
     (∃ v, Labels csr !! clusterLabel = Some v ∧ v ≠ "")
     ∧ (∀ c, c ∈ elems (Conditions csr) →
          Type_ c ≠ CertificateApproved ∧ Type_ c ≠ CertificateDenied)
     ∧ Username csr = bootstrapIdentity (default "" (Labels csr !! clusterLabel)))
  ∧ (∃ b, csrPredicate csr = b)
  ∧ (∀ csr', Labels csr' = Labels csr → Username csr' = Username csr →
       elems (Conditions csr') = elems (Conditions csr) →
       csrPredicate csr' = csrPredicate csr).
Proof.
  split; [|split].
  - rewrite csrPredicate_spec, getClusterName_nonempty, getClusterName_lookup.
    assert (¬ terminal csr ↔
            ∀ c, c ∈ elems (Conditions csr) →
                 Type_ c ≠ CertificateApproved ∧ Type_ c ≠ CertificateDenied) as ->;
      [|tauto].
    unfold terminal, terminalType. split.
    + intros Hno c Hin. split; intros Hty; apply Hno; exists c; tauto.
    + intros Hall (c & Hin & Hty). destruct (Hall c Hin). tauto.
  - by exists (csrPredicate csr).
  - intros csr' Hlabels Huser Hconds. unfold csrPredicate, validUsername.
    cbv zeta. rewrite !getApprovalType_elems, !getClusterName_lookup.
    by rewrite Hlabels, Huser, Hconds.
Qed.

(** ** The reconciler: properties *)

(** C1 (counterexample). The request [Scenario.approved] carries an Approved
    condition; [Reconcile] on it, with its cluster registered, submits an
    approval update whose condition list has grown from one entry to two. *)
Lemma terminal_csr_approved_again :
  terminal Scenario.approved
  ∧ GetCSR (client (Scenario.reconciler Scenario.approved)) Scenario.request
    = Ok Scenario.approved
  ∧ submitted (calls (Reconcile Scenario.clock (Scenario.reconciler Scenario.approved) Scenario.request))
    = [setConditions Scenario.approved (Some [approvedCondition 5%Z; approvedCondition Scenario.clock])]
  ∧ length (elems (Conditions Scenario.approved)) = 1
  ∧ (length ∘ elems ∘ Conditions) <$>
      store_after {[ "csr-1" := Scenario.approved ]}
        (calls (Reconcile Scenario.clock (Scenario.reconciler Scenario.approved) Scenario.request))
      !! "csr-1" = Some 2.
Proof.
  split.
  - exists (approvedCondition 5%Z). split; [apply list_elem_of_here | by left].
  - by vm_compute.
Qed.

(** C1 (amended). A request that carries a condition of type Approved or
    Denied is rejected by the event filter, and [Reconcile] on it writes
    nothing and returns success whenever the request is marked for deletion
    or the fetch of the registry entry of its cluster fails. *)
Theorem terminal_csr_filtered_and_spared (now : Time) (r : ReconcileCSR)
    (request : Request) (csr : CertificateSigningRequest) :
  terminal csr →
  GetCSR (client r) request = Ok csr →
  DeletionTimestamp csr ≠ None
    ∨ (∃ err, GetManagedCluster (client r) (registryKey csr) = Err err) →
  csrPredicate csr = false
  ∧ csrPredicateFuncs (CreateEvent csr) = false
  ∧ (∀ old, csrPredicateFuncs (UpdateEvent old csr) = false)
  ∧ zero_writes (Reconcile now r request)
  ∧ ends (Reconcile now r request) = success.
Proof.
  intros Hterm Hcsr Hstop.
  pose proof (csrPredicate_terminal csr Hterm) as Hpred.
  destruct (Reconcile_stops_early now r request csr Hcsr Hstop) as [Hzero Hends].
  repeat split; try done; apply Hzero.
Qed.

Lemma terminal_csr_filtered_and_spared_witness :
  csrPredicate Scenario.denied_stranger = false
  ∧ csrPredicateFuncs (CreateEvent Scenario.denied_stranger) = false
  ∧ (∀ old, csrPredicateFuncs (UpdateEvent old Scenario.denied_stranger) = false)
  ∧ zero_writes (Reconcile Scenario.clock (Scenario.reconciler Scenario.denied_stranger) Scenario.request)
  ∧ ends (Reconcile Scenario.clock (Scenario.reconciler Scenario.denied_stranger) Scenario.request)
    = success.
Proof.
  apply (terminal_csr_filtered_and_spared Scenario.clock
           (Scenario.reconciler Scenario.denied_stranger) Scenario.request
           Scenario.denied_stranger).
  - eexists. split; [apply list_elem_of_here | right; reflexivity].
  - reflexivity.
  - right. exists StatusNotFound. vm_compute. reflexivity.
Defined.

(** C2 (counterexample). The request [Scenario.impostor] is labelled alpha and
    asks as system:serviceaccount:beta:alpha-bootstrap-sa. The filter rejects
    it, yet [Reconcile] on it, alpha being registered, submits one approval
    update. *)
Lemma impostor_csr_approved :
  Labels Scenario.impostor !! clusterLabel = Some "alpha"
  ∧ Username Scenario.impostor ≠ bootstrapIdentity "alpha"
  ∧ csrPredicate Scenario.impostor = false
  ∧ GetCSR (client (Scenario.reconciler Scenario.impostor)) Scenario.request
    = Ok Scenario.impostor
  ∧ submitted (calls (Reconcile Scenario.clock (Scenario.reconciler Scenario.impostor)
                        Scenario.request))
    = [setConditions Scenario.impostor (Some [approvedCondition Scenario.clock])]
  ∧ ends (Reconcile Scenario.clock (Scenario.reconciler Scenario.impostor) Scenario.request)
    = success.
Proof. by vm_compute. Qed.

(** C2 (amended). A request whose Username is not exactly
    system:serviceaccount:<cluster>:<cluster>-bootstrap-sa, <cluster> being
    the value of its cluster-name label, is not eligible: the event filter
    rejects it. [Reconcile] on it writes nothing and returns success whenever
    the request is marked for deletion or the fetch of the registry entry of
    its cluster fails. *)
Theorem mismatched_username_filtered_and_spared (now : Time) (r : ReconcileCSR)
    (request : Request) (csr : CertificateSigningRequest) :
  Username csr ≠ bootstrapIdentity (default "" (Labels csr !! clusterLabel)) →
  GetCSR (client r) request = Ok csr →
  DeletionTimestamp csr ≠ None
    ∨ (∃ err, GetManagedCluster (client r) (registryKey csr) = Err err) →
  csrPredicate csr = false
  ∧ csrPredicateFuncs (CreateEvent csr) = false
  ∧ (∀ old, csrPredicateFuncs (UpdateEvent old csr) = false)
  ∧ zero_writes (Reconcile now r request)
  ∧ ends (Reconcile now r request) = success.
Proof.
  intros Huser Hcsr Hstop. rewrite <- getClusterName_lookup in Huser.
  pose proof (csrPredicate_username csr Huser) as Hpred.
  destruct (Reconcile_stops_early now r request csr Hcsr Hstop) as [Hzero Hends].
  repeat split; try done; apply Hzero.
Qed.

Lemma mismatched_username_filtered_and_spared_witness :
  csrPredicate Scenario.impostor_leaving = false
  ∧ csrPredicateFuncs (CreateEvent Scenario.impostor_leaving) = false
  ∧ (∀ old, csrPredicateFuncs (UpdateEvent old Scenario.impostor_leaving) = false)
  ∧ zero_writes (Reconcile Scenario.clock (Scenario.reconciler Scenario.impostor_leaving)
                   Scenario.request)
  ∧ ends (Reconcile Scenario.clock (Scenario.reconciler Scenario.impostor_leaving)
            Scenario.request)
    = success.
Proof.
  apply (mismatched_username_filtered_and_spared Scenario.clock
           (Scenario.reconciler Scenario.impostor_leaving) Scenario.request
           Scenario.impostor_leaving).
  - vm_compute. discriminate.
  - reflexivity.
  - left. discriminate.
Defined.

(** C3 (counterexample). The request [Scenario.leaving] is eligible and its
    cluster is registered, but it is marked for deletion: [Reconcile] returns
    success without appending or submitting anything. *)
Lemma eligible_csr_marked_for_deletion_not_approved :
  csrPredicate Scenario.leaving = true
  ∧ GetCSR (client (Scenario.reconciler Scenario.leaving)) Scenario.request
    = Ok Scenario.leaving
  ∧ GetManagedCluster (client (Scenario.reconciler Scenario.leaving))
      (registryKey Scenario.leaving) = Ok Scenario.alpha
  ∧ kubeClient (Scenario.reconciler Scenario.leaving) = Some Scenario.accepting
  ∧ submitted (calls (Reconcile Scenario.clock (Scenario.reconciler Scenario.leaving)
                        Scenario.request)) = []
  ∧ ends (Reconcile Scenario.clock (Scenario.reconciler Scenario.leaving) Scenario.request)
    = success.
Proof. by vm_compute. Qed.

(** C3 (amended). For an eligible request that is not marked for deletion and
    whose labelled cluster has a registry entry, one run of [Reconcile], by a
    reconciler that holds a kube client, submits exactly one approval update.
    The object submitted is the request with one condition added at the end
    of its list: type Approved, the fixed reason and message, the time read
    from the clock; the conditions it had are kept, in place and in order.
    The run returns what the submission answered. *)
Theorem eligible_csr_approved_once (now : Time) (r : ReconcileCSR) (request : Request)
    (csr : CertificateSigningRequest) (clusterName : string)
    (cluster : ManagedCluster) (kube : KubeInterface) :
  GetCSR (client r) request = Ok csr →
  csrPredicate csr = true →
  DeletionTimestamp csr = None →
  Labels csr !! clusterLabel = Some clusterName →
  GetManagedCluster (client r) {| Namespace := ""; KeyName := clusterName |} = Ok cluster →
  kubeClient r = Some kube →
  ∃ sent,
    submitted (calls (Reconcile now r request)) = [sent]
    ∧ elems (Conditions sent)
      = elems (Conditions csr)
        ++ [ {| Type_ := CertificateApproved;
                Reason := "AutoApprovedByCSRController";
                Message := "The managedcluster-import-controller auto approval automatically approved this CSR";
                LastUpdateTime := now |} ]
    ∧ (∀ i c, elems (Conditions csr) !! i = Some c → elems (Conditions sent) !! i = Some c)
    ∧ (Name sent, Labels sent, DeletionTimestamp sent, Username sent)
      = (Name csr, Labels csr, DeletionTimestamp csr, Username csr)
    ∧ ends (Reconcile now r request) = Returned Result0 (error_of (UpdateApproval kube sent)).
Proof.
  intros Hcsr _ Hdel Hlabel Hreg Hkube.
  assert (registryKey csr = {| Namespace := ""; KeyName := clusterName |}) as Hkey.
  { unfold registryKey. by rewrite getClusterName_lookup, Hlabel. }
  rewrite <- Hkey in Hreg.
  rewrite (Reconcile_approves now r request csr cluster kube Hcsr Hdel Hreg Hkube).
  exists (approve now csr). repeat split.
  intros i c Hi. cbn. by apply lookup_app_l_Some.
Qed.

Lemma eligible_csr_approved_once_witness :
  ∃ sent,
    submitted (calls (Reconcile Scenario.clock (Scenario.reconciler Scenario.pending)
                        Scenario.request)) = [sent]
    ∧ elems (Conditions sent)
      = elems (Conditions Scenario.pending)
        ++ [ {| Type_ := CertificateApproved;
                Reason := "AutoApprovedByCSRController";
                Message := "The managedcluster-import-controller auto approval automatically approved this CSR";
                LastUpdateTime := Scenario.clock |} ]
    ∧ (∀ i c, elems (Conditions Scenario.pending) !! i = Some c →
              elems (Conditions sent) !! i = Some c)
    ∧ (Name sent, Labels sent, DeletionTimestamp sent, Username sent)
      = (Name Scenario.pending, Labels Scenario.pending,
         DeletionTimestamp Scenario.pending, Username Scenario.pending)
    ∧ ends (Reconcile Scenario.clock (Scenario.reconciler Scenario.pending) Scenario.request)
      = Returned Result0 (error_of (UpdateApproval Scenario.accepting sent)).
Proof.
  apply (eligible_csr_approved_once Scenario.clock (Scenario.reconciler Scenario.pending)
           Scenario.request Scenario.pending "alpha" Scenario.alpha Scenario.accepting);
    by vm_compute.
Defined.

(** C5. A run of [Reconcile] in which the fetch of the registry entry
    answers not-found, or any other error, writes nothing and returns
    success: no error, no requeue. The entry fetched is the one named by the
    cluster-name label of the request. *)
Theorem registry_fetch_failure_is_success (now : Time) (r : ReconcileCSR)
    (request : Request) (key : NamespacedName) (err : error) :
  ClientGetManagedCluster key (Err err) ∈ calls (Reconcile now r request) →
  zero_writes (Reconcile now r request)
  ∧ ends (Reconcile now r request) = Returned {| Requeue := false; RequeueAfter := 0 |} None
  ∧ ∃ csr, GetCSR (client r) request = Ok csr
      ∧ key = {| Namespace := ""; KeyName := default "" (Labels csr !! clusterLabel) |}.
Proof.
  intros Hin.
  destruct (Reconcile_run now r request) as
    [e He|csr t Hc Hd|csr e Hc Hd Hr|csr cl Hc Hd Hr Hk|csr cl k Hc Hd Hr Hk];
    try (trace_member Hin; fail).
  split; [by apply zero_writes_submitted|]. split; [done|].
  exists csr. split; [done|]. trace_member Hin.
  injection Hin as -> _. unfold registryKey. by rewrite getClusterName_lookup.
Qed.

Lemma registry_fetch_failure_is_success_witness :
  zero_writes (Reconcile Scenario.clock (Scenario.reconciler Scenario.denied_stranger)
                 Scenario.request)
  ∧ ends (Reconcile Scenario.clock (Scenario.reconciler Scenario.denied_stranger)
            Scenario.request)
    = Returned {| Requeue := false; RequeueAfter := 0 |} None
  ∧ ∃ csr, GetCSR (client (Scenario.reconciler Scenario.denied_stranger)) Scenario.request
           = Ok csr
      ∧ {| Namespace := ""; KeyName := "gamma" |}
        = {| Namespace := ""; KeyName := default "" (Labels csr !! clusterLabel) |}.
Proof.
  apply (registry_fetch_failure_is_success Scenario.clock
           (Scenario.reconciler Scenario.denied_stranger) Scenario.request
           {| Namespace := ""; KeyName := "gamma" |} StatusNotFound).
  vm_compute. do 2 apply list_elem_of_further. apply list_elem_of_here.
Defined.

(** C6. When the fetch of the request answers not-found, [Reconcile] returns
    success, with no error, having written nothing: it has only logged its
    start and made that fetch. *)
Theorem csr_not_found_is_success (now : Time) (r : ReconcileCSR) (request : Request)
    (err : error) :
  GetCSR (client r) request = Err err →
  IsNotFound err = true →
  zero_writes (Reconcile now r request)
  ∧ ends (Reconcile now r request) = Returned {| Requeue := false; RequeueAfter := 0 |} None
  ∧ calls (Reconcile now r request)
    = [LogInfo "Reconciling CSR"; ClientGetCSR request (Err err)].
Proof.
  intros Hget Hnf.
  destruct (Reconcile_run now r request) as
    [e He|csr t Hc Hd|csr e Hc Hd Hr|csr cl Hc Hd Hr Hk|csr cl k Hc Hd Hr Hk];
    try congruence.
  assert (e = err) as -> by congruence.
  split; [by apply zero_writes_submitted|]. cbn. by rewrite Hnf.
Qed.

Lemma csr_not_found_is_success_witness :
  zero_writes (Reconcile Scenario.clock (Scenario.reconciler Scenario.pending)
                 {| Namespace := ""; KeyName := "csr-2" |})
  ∧ ends (Reconcile Scenario.clock (Scenario.reconciler Scenario.pending)
            {| Namespace := ""; KeyName := "csr-2" |})
    = Returned {| Requeue := false; RequeueAfter := 0 |} None
  ∧ calls (Reconcile Scenario.clock (Scenario.reconciler Scenario.pending)
             {| Namespace := ""; KeyName := "csr-2" |})
    = [LogInfo "Reconciling CSR";
       ClientGetCSR {| Namespace := ""; KeyName := "csr-2" |} (Err StatusNotFound)].
Proof.
  apply (csr_not_found_is_success Scenario.clock (Scenario.reconciler Scenario.pending)
           {| Namespace := ""; KeyName := "csr-2" |} StatusNotFound);
    reflexivity.
Defined.

(** C7 (the run that breaks it). The reconciler [newReconciler] builds when
    no kube client can be made reads the request and the registry entry of
    its cluster without error, and then panics at the submission: it returns
    neither an error nor success, and nothing was submitted that could have
    failed. *)
Theorem clientless_run_returns_nothing :
  GetCSR (client (Scenario.clientless Scenario.pending)) Scenario.request
  = Ok Scenario.pending
  ∧ DeletionTimestamp Scenario.pending = None
  ∧ GetManagedCluster (client (Scenario.clientless Scenario.pending))
      (registryKey Scenario.pending) = Ok Scenario.alpha
  ∧ submitted (calls (Reconcile Scenario.clock (Scenario.clientless Scenario.pending)
                        Scenario.request)) = []
  ∧ ends (Reconcile Scenario.clock (Scenario.clientless Scenario.pending) Scenario.request)
    = Panicked
  ∧ (∀ res err,
       ends (Reconcile Scenario.clock (Scenario.clientless Scenario.pending) Scenario.request)
       ≠ Returned res err).
Proof. by vm_compute. Qed.

(** C8. Every approval update a run of [Reconcile] submits is the request it
    fetched with one condition of type Approved, never Denied, added at the
    end; every condition the request had is still there, at the same place.
    The submissions are the only writes of the controller. *)
Theorem only_approved_is_appended (now : Time) (r : ReconcileCSR) (request : Request)
    (sent : CertificateSigningRequest) :
  sent ∈ submitted (calls (Reconcile now r request)) →
  ∃ csr appended,
    GetCSR (client r) request = Ok csr
    ∧ elems (Conditions sent) = elems (Conditions csr) ++ [appended]
    ∧ Type_ appended = CertificateApproved
    ∧ Type_ appended ≠ CertificateDenied
    ∧ (∀ i c, elems (Conditions csr) !! i = Some c → elems (Conditions sent) !! i = Some c)
    ∧ length (elems (Conditions sent)) = S (length (elems (Conditions csr))).
Proof.
  intros Hin.
  destruct (Reconcile_run now r request) as
    [e He|csr t Hc Hd|csr e Hc Hd Hr|csr cl Hc Hd Hr Hk|csr cl k Hc Hd Hr Hk];
    try (trace_member Hin; fail).
  trace_member Hin. subst sent.
  exists csr, (approvedCondition now). cbn. repeat split; try done.
  - intros i c Hi. by apply lookup_app_l_Some.
  - rewrite length_app. cbn. lia.
Qed.

Lemma only_approved_is_appended_witness :
  ∃ csr appended,
    GetCSR (client (Scenario.reconciler Scenario.approved)) Scenario.request = Ok csr
    ∧ elems (Conditions (approve Scenario.clock Scenario.approved))
      = elems (Conditions csr) ++ [appended]
    ∧ Type_ appended = CertificateApproved
    ∧ Type_ appended ≠ CertificateDenied
    ∧ (∀ i c, elems (Conditions csr) !! i = Some c →
              elems (Conditions (approve Scenario.clock Scenario.approved)) !! i = Some c)
    ∧ length (elems (Conditions (approve Scenario.clock Scenario.approved)))
      = S (length (elems (Conditions csr))).
Proof.
  apply (only_approved_is_appended Scenario.clock (Scenario.reconciler Scenario.approved)
           Scenario.request (approve Scenario.clock Scenario.approved)).
  vm_compute. apply list_elem_of_here.
Defined.

(** With a kube client, a run that meets neither error returns success. *)
Lemma Reconcile_success_otherwise (now : Time) (r : ReconcileCSR) (request : Request)
    (kube : KubeInterface) :
  kubeClient r = Some kube →
  (∀ err, ends (Reconcile now r request) ≠ Returned Result0 (Some err)) →
  ends (Reconcile now r request) = success.
Proof.
  intros Hkube Hno.
  destruct (ends (Reconcile now r request)) as [res [err|]|] eqn:Hends.
  - apply Reconcile_never_requeues in Hends as Hres. subst res. by destruct (Hno err).
  - apply Reconcile_never_requeues in Hends as Hres. by subst res.
  - apply Reconcile_panics_iff in Hends as [Hnil _]. congruence.
Qed.

(** C9. A request without the cluster-name label is not eligible, and the
    name [Reconcile] looks its cluster up under is the empty one; as the
    registry yields no entry under the empty name, the run writes nothing. *)
Theorem unlabeled_csr_ignored (csr : CertificateSigningRequest) :
  Labels csr !! clusterLabel = None →
  csrPredicate csr = false
  ∧ getClusterName csr = ""
  ∧ ∀ now r request,
      GetCSR (client r) request = Ok csr →
      (∃ err, GetManagedCluster (client r) {| Namespace := ""; KeyName := "" |} = Err err) →
      zero_writes (Reconcile now r request)
      ∧ ends (Reconcile now r request) = success.
Proof.
  intros Hnone.
  assert (getClusterName csr = "") as Hname.
  { by rewrite getClusterName_lookup, Hnone. }
  split; [|split; [done|]].
  - apply not_true_iff_false. rewrite csrPredicate_spec. tauto.
  - intros now r request Hcsr Hreg. apply (Reconcile_stops_early now r request csr Hcsr).
    right. unfold registryKey. by rewrite Hname.
Qed.

Lemma unlabeled_csr_ignored_witness :
  csrPredicate Scenario.unlabeled = false
  ∧ getClusterName Scenario.unlabeled = ""
  ∧ zero_writes (Reconcile Scenario.clock (Scenario.reconciler Scenario.unlabeled)
                   Scenario.request)
  ∧ ends (Reconcile Scenario.clock (Scenario.reconciler Scenario.unlabeled) Scenario.request)
    = success.
Proof.
  destruct (unlabeled_csr_ignored Scenario.unlabeled eq_refl) as (Hpred & Hname & Hrun).
  split; [exact Hpred|]. split; [exact Hname|].
  apply Hrun; [reflexivity|]. exists StatusNotFound. reflexivity.
Defined.

(** C10 (the run that breaks it). When the kube client cannot be made,
    [newReconciler] keeps nil for it; the run of that reconciler on a live
    request of a registered cluster reaches the submission, the last thing it
    did being to log the approval, and panics there on the nil client. *)
Theorem clientless_run_reaches_submission :
  kubeClient (newReconciler {| GetClient := Scenario.serving Scenario.pending |}
                (Err (StatusOther "no configuration"))) = None
  ∧ Reconcile Scenario.clock
      (newReconciler {| GetClient := Scenario.serving Scenario.pending |}
         (Err (StatusOther "no configuration")))
      Scenario.request
    = ([LogInfo "Reconciling CSR";
        ClientGetCSR Scenario.request (Ok Scenario.pending);
        ClientGetManagedCluster {| Namespace := ""; KeyName := "alpha" |} (Ok Scenario.alpha);
        LogInfo "Approving CSR"],
       Panic).
Proof. by vm_compute. Qed.

(** Whatever the manager and the error, the reconciler made without a kube
    client panics on every live request of a registered cluster. *)
Lemma newReconciler_without_client_panics (mgr : Manager) (err : error) (now : Time)
    (request : Request) (csr : CertificateSigningRequest) (cluster : ManagedCluster) :
  GetCSR (GetClient mgr) request = Ok csr →
  DeletionTimestamp csr = None →
  GetManagedCluster (GetClient mgr) (registryKey csr) = Ok cluster →
  ends (Reconcile now (newReconciler mgr (Err err)) request) = Panicked.
Proof.
  intros Hcsr Hdel Hreg. apply Reconcile_panics_iff. split; [done|].
  exists csr, cluster. by cbn.
Qed.

(** ** Further properties of the eligibility filter *)

(** X1. [getClusterName] does not depend on the order in which Go visits the
    label map: over any arrangement of the entries, its loop ends with the
    value stored under the cluster-name label, or with the empty string when
    the label is missing. *)
Theorem getClusterName_order_irrelevant (csr : CertificateSigningRequest)
    (kvs : list (string * string)) :
  kvs ≡ₚ map_to_list (Labels csr) →
  getClusterName_range kvs = getClusterName csr
  ∧ getClusterName csr = default "" (Labels csr !! clusterLabel).
Proof.
  intros Hperm. rewrite (getClusterName_any_order (Labels csr) kvs Hperm).
  by rewrite getClusterName_lookup.
Qed.

Lemma getClusterName_order_irrelevant_witness :
  getClusterName_range [(clusterLabel, "alpha"); ("zone", "eu")] = getClusterName Filter.zoned
  ∧ getClusterName Filter.zoned = default "" (Labels Filter.zoned !! clusterLabel).
Proof.
  apply (getClusterName_order_irrelevant Filter.zoned
           [(clusterLabel, "alpha"); ("zone", "eu")]).
  vm_compute. first [reflexivity | apply perm_swap].
Defined.

(** X2. Only the entry under the cluster-name label counts for
    [getClusterName]: setting that label makes it answer the value set,
    removing it makes it answer the empty string, and setting or removing
    any other label changes nothing. *)
Theorem getClusterName_follows_its_label (csr : CertificateSigningRequest) (k v : string) :
  getClusterName (withLabels csr (<[clusterLabel := v]> (Labels csr))) = v
  ∧ getClusterName (withLabels csr (delete clusterLabel (Labels csr))) = ""
  ∧ (k ≠ clusterLabel →
     getClusterName (withLabels csr (<[k := v]> (Labels csr))) = getClusterName csr
     ∧ getClusterName (withLabels csr (delete k (Labels csr))) = getClusterName csr).
Proof.
  rewrite !getClusterName_lookup. cbn [withLabels Labels].
  split; [by rewrite lookup_insert_eq|]. split; [by rewrite lookup_delete_eq|].
  intros Hk. by rewrite lookup_insert_ne, lookup_delete_ne.
Qed.

(** X3. For [getClusterName], and so for the filter, a cluster-name label
    with the empty value is the same as no label: the answer is the empty
    string in exactly these two cases, and then [csrPredicate] rejects the
    request whatever its Username and conditions are. *)
Theorem empty_cluster_name_rejected (csr : CertificateSigningRequest) :
  (getClusterName csr = "" ↔
     Labels csr !! clusterLabel = None ∨ Labels csr !! clusterLabel = Some "")
  ∧ (Labels csr !! clusterLabel = None ∨ Labels csr !! clusterLabel = Some "" →
     csrPredicate csr = false).
Proof.
  assert (getClusterName csr = "" ↔
          Labels csr !! clusterLabel = None ∨ Labels csr !! clusterLabel = Some "") as Hiff.
  { rewrite getClusterName_lookup.
    destruct (Labels csr !! clusterLabel) as [v|]; cbn.
    - split; [intros ->; by right | by intros [?|[= ->]]].
    - split; [by left | done]. }
  split; [exact Hiff|].
  intros Hempty%Hiff. apply not_true_iff_false. rewrite csrPredicate_spec. tauto.
Qed.

(** The check of the name is what rejects such a request: its Username can
    be the one the template gives for the empty name. *)
Example nameless_username_valid :
  validUsername Filter.nameless (getClusterName Filter.nameless) = true
  ∧ getApprovalType Filter.nameless = ""
  ∧ csrPredicate Filter.nameless = false.
Proof. by vm_compute. Qed.

(** X4. [getApprovalType] answers the type of the first condition, in list
    order, whose type is Approved or Denied; conditions of other types before
    it, and whatever follows it, do not count. *)
Theorem getApprovalType_first_terminal (csr : CertificateSigningRequest)
    (before after : list CertificateSigningRequestCondition)
    (c : CertificateSigningRequestCondition) :
  Conditions csr = Some (before ++ c :: after) →
  (∀ c', c' ∈ before → ¬ terminalType (Type_ c')) →
  terminalType (Type_ c) →
  getApprovalType csr = Type_ c.
Proof.
  intros Hconds Hbefore Hc. unfold getApprovalType. rewrite Hconds.
  apply getApprovalType_range_first; [|done]. by apply Forall_forall.
Qed.

Lemma getApprovalType_first_terminal_witness :
  getApprovalType Filter.contested = CertificateDenied.
Proof.
  apply (getApprovalType_first_terminal Filter.contested
           [ {| Type_ := "Failed"; Reason := "Signer"; Message := "no signer";
                LastUpdateTime := 1%Z |} ]
           [ {| Type_ := CertificateApproved; Reason := "Manual"; Message := "approved";
                LastUpdateTime := 3%Z |} ]
           {| Type_ := CertificateDenied; Reason := "Manual"; Message := "denied";
              LastUpdateTime := 2%Z |}).
  - reflexivity.
  - intros c' Hin. apply list_elem_of_singleton in Hin. subst c'.
    intros [Hty|Hty]; discriminate Hty.
  - right. reflexivity.
Defined.

Lemma getApprovalType_range_values (cs : list CertificateSigningRequestCondition) :
  getApprovalType_range cs = ""
  ∨ ∃ c, c ∈ cs ∧ terminalType (Type_ c) ∧ getApprovalType_range cs = Type_ c.
Proof.
  induction cs as [|c cs IH]; cbn [getApprovalType_range]; [by left|].
  destruct (String.eqb (Type_ c) CertificateApproved
            || String.eqb (Type_ c) CertificateDenied) eqn:Hc.
  - right. exists c. split; [apply list_elem_of_here|]. split; [|done].
    by apply terminalType_eqb.
  - destruct IH as [Hempty|(c' & Hin & Hty & Heq)]; [by left|].
    right. exists c'. split; [by apply list_elem_of_further|done].
Qed.

(** X5. [getApprovalType] has three answers only. It answers the empty
    string exactly for the requests that carry no condition of type Approved
    or Denied, among them those with a nil or an empty condition list, and
    Approved or Denied for the others. *)
Theorem getApprovalType_answers (csr : CertificateSigningRequest) :
  (getApprovalType csr = "" ∧ ¬ terminal csr
   ∨ terminal csr
     ∧ (getApprovalType csr = CertificateApproved
        ∨ getApprovalType csr = CertificateDenied))
  ∧ (elems (Conditions csr) = [] → getApprovalType csr = "").
Proof.
  split.
  - rewrite getApprovalType_elems.
    destruct (getApprovalType_range_values (elems (Conditions csr)))
      as [Hempty|(c & Hin & Hty & Heq)].
    + left. split; [done|]. apply getApprovalType_empty.
      by rewrite getApprovalType_elems.
    + right. split; [by exists c|]. by rewrite Heq.
  - intros Hnil. rewrite getApprovalType_elems, Hnil. reflexivity.
Qed.

Lemma string_length_app (s t : string) :
  String.length (s +:+ t) = String.length s + String.length t.
Proof. induction s as [|a s IH]; [done|]. simpl. by f_equal. Qed.

Lemma string_app_cancel_l (p x y : string) : p +:+ x = p +:+ y → x = y.
Proof. induction p as [|a p IH]; cbn; [done|]. intros [= H]. by apply IH. Qed.

(** Two strings that begin with heads of the same length begin with the
    same head. *)
Lemma string_app_same_head (a b x y : string) :
  String.length a = String.length b → a +:+ x = b +:+ y → a = b.
Proof.
  revert b. induction a as [|c a IH]; intros [|d b]; cbn; try done.
  intros [= Hlen] [= -> Happ]. f_equal. by apply IH.
Qed.

Lemma bootstrapIdentity_inj (a b : string) :
  bootstrapIdentity a = bootstrapIdentity b → a = b.
Proof.
  unfold bootstrapIdentity. intros H%string_app_cancel_l.
  apply (string_app_same_head a b _ _) in H as Hab; [done|].
  apply (f_equal String.length) in H. rewrite !string_length_app in H. lia.
Qed.

(** X6. A Username is valid for at most one cluster name: the template puts
    the name in twice, so a name that contains colons or the suffix cannot
    pass for another. Hence two requests the filter admits with the same
    Username are labelled with the same cluster. *)
Theorem validUsername_names_one_cluster (csr csr' : CertificateSigningRequest)
    (a b : string) :
  (validUsername csr a = true → validUsername csr b = true → a = b)
  ∧ (csrPredicate csr = true → csrPredicate csr' = true →
     Username csr = Username csr' → getClusterName csr = getClusterName csr').
Proof.
  split.
  - rewrite !validUsername_spec. intros Ha Hb. apply bootstrapIdentity_inj. congruence.
  - rewrite !csrPredicate_spec. intros (_ & _ & Hu) (_ & _ & Hu') Heq.
    apply bootstrapIdentity_inj. congruence.
Qed.

(** ** Further properties of the reconciler *)

Lemma approve_terminal (now : Time) (csr : CertificateSigningRequest) :
  terminal (approve now csr).
Proof.
  exists (approvedCondition now). split; [|by left].
  cbn. apply elem_of_app. right. apply list_elem_of_here.
Qed.

(** X7. What [Reconcile] submits never passes the filter again: the object
    carries a terminal condition, so neither its creation nor an update to
    it, from whatever older state, is let through by the filter of [add]. The
    controller's own write does not enqueue the request anew. *)
Theorem submitted_csr_filtered (now : Time) (r : ReconcileCSR) (request : Request)
    (sent old : CertificateSigningRequest) :
  sent ∈ submitted (calls (Reconcile now r request)) →
  getApprovalType sent ≠ ""
  ∧ csrPredicate sent = false
  ∧ csrPredicateFuncs (UpdateEvent old sent) = false
  ∧ csrPredicateFuncs (CreateEvent sent) = false.
Proof.
  intros Hin.
  assert (terminal sent) as Hterm.
  { destruct (Reconcile_run now r request); try (trace_member Hin; fail).
    trace_member Hin. subst sent. apply approve_terminal. }
  pose proof (csrPredicate_terminal sent Hterm) as Hpred.
  split; [|done]. intros Hempty. by apply getApprovalType_empty in Hempty.
Qed.

Lemma submitted_csr_filtered_witness :
  getApprovalType (approve Scenario.clock Scenario.pending) ≠ ""
  ∧ csrPredicate (approve Scenario.clock Scenario.pending) = false
  ∧ csrPredicateFuncs (UpdateEvent Scenario.pending (approve Scenario.clock Scenario.pending))
    = false
  ∧ csrPredicateFuncs (CreateEvent (approve Scenario.clock Scenario.pending)) = false.
Proof.
  apply (submitted_csr_filtered Scenario.clock (Scenario.reconciler Scenario.pending)
           Scenario.request).
  vm_compute. apply list_elem_of_here.
Defined.

(** X8. [Reconcile] submits an approval exactly when it could read the
    request, the request is not marked for deletion, the registry entry
    named by its cluster-name label could be read, and the reconciler holds a
    kube client. It then submits once, the request with the Approved
    condition added; in every other case it submits nothing. Neither the
    Username nor the conditions of the request have a say. *)
Theorem Reconcile_submits_iff (now : Time) (r : ReconcileCSR) (request : Request) :
  (∀ sent,
     submitted (calls (Reconcile now r request)) = [sent] ↔
     ∃ csr cluster kube,
       GetCSR (client r) request = Ok csr
       ∧ DeletionTimestamp csr = None
       ∧ GetManagedCluster (client r)
           {| Namespace := ""; KeyName := default "" (Labels csr !! clusterLabel) |}
         = Ok cluster
       ∧ kubeClient r = Some kube
       ∧ sent = approve now csr)
  ∧ (submitted (calls (Reconcile now r request)) = []
     ∨ ∃ sent, submitted (calls (Reconcile now r request)) = [sent]).
Proof.
  assert (∀ csr, {| Namespace := ""; KeyName := default "" (Labels csr !! clusterLabel) |}
                 = registryKey csr) as Hkey.
  { intros csr. unfold registryKey. by rewrite getClusterName_lookup. }
  split.
  - intros sent. split.
    + intros Hsub.
      destruct (Reconcile_run now r request) as
        [e He|csr t Hc Hd|csr e Hc Hd Hr|csr cl Hc Hd Hr Hk|csr cl k Hc Hd Hr Hk];
        cbn in Hsub; try discriminate Hsub.
      injection Hsub as <-. exists csr, cl, k. by rewrite Hkey.
    + intros (csr & cluster & kube & Hcsr & Hdel & Hreg & Hkube & ->).
      rewrite Hkey in Hreg.
      by rewrite (Reconcile_approves now r request csr cluster kube).
  - destruct (Reconcile_run now r request); cbn; eauto.
Qed.

(** X9. [Reconcile] reads before it does anything else, and no more than it
    needs: every run begins by logging and fetching the request under the
    key it was given; the registry is asked only for a request that was read
    and is not marked for deletion, once, under the empty namespace and the
    name [getClusterName] gives; an approval is submitted only after that
    fetch has answered with an entry. *)
Theorem Reconcile_reads_first (now : Time) (r : ReconcileCSR) (request : Request) :
  (∃ rest,
     calls (Reconcile now r request)
     = LogInfo "Reconciling CSR" :: ClientGetCSR request (GetCSR (client r) request) :: rest
     ∧ ∀ key res, ClientGetCSR key res ∉ rest)
  ∧ (∀ key res,
       ClientGetManagedCluster key res ∈ calls (Reconcile now r request) →
       ∃ csr, GetCSR (client r) request = Ok csr
         ∧ DeletionTimestamp csr = None
         ∧ key = {| Namespace := ""; KeyName := getClusterName csr |}
         ∧ res = GetManagedCluster (client r) key)
  ∧ (∀ sent res,
       KubeUpdateApproval sent res ∈ calls (Reconcile now r request) →
       ∃ before cluster,
         calls (Reconcile now r request)
         = before ++ [ClientGetManagedCluster
                        {| Namespace := ""; KeyName := getClusterName sent |} (Ok cluster);
                      LogInfo "Approving CSR"; KubeUpdateApproval sent res]).
Proof.
  destruct (Reconcile_run now r request) as
    [e He|csr t Hc Hd|csr e Hc Hd Hr|csr cl Hc Hd Hr Hk|csr cl k Hc Hd Hr Hk].
  all: split; [eexists; split;
                 [cbn; first [by rewrite He | by rewrite Hc]
                 |intros key res Hin; trace_member Hin]|].
  all: split; [intros key res Hin|intros sent res Hin]; try (trace_member Hin; fail).
  - trace_member Hin. injection Hin as -> ->. exists csr. by rewrite Hr.
  - trace_member Hin. injection Hin as -> ->. exists csr. by rewrite Hr.
  - trace_member Hin. injection Hin as -> ->. exists csr. by rewrite Hr.
  - trace_member Hin. injection Hin as -> ->.
    exists [LogInfo "Reconciling CSR"; ClientGetCSR request (Ok csr)], cl.
    assert (getClusterName (approve now csr) = getClusterName csr) as -> by done.
    reflexivity.
Qed.

(** X10. A run of [Reconcile] returns the error [err] exactly when the
    fetch of the request failed with [err], [err] not being not-found, or the
    approval it submitted was answered with [err]; the error is handed on as
    it came. Whatever a run returns, it asks for no requeue of its own. *)
Theorem Reconcile_hands_errors_on (now : Time) (r : ReconcileCSR) (request : Request)
    (err : error) :
  ((∃ res, ends (Reconcile now r request) = Returned res (Some err)) ↔
     (GetCSR (client r) request = Err err ∧ IsNotFound err = false)
     ∨ (∃ csr kube, GetCSR (client r) request = Ok csr
          ∧ kubeClient r = Some kube
          ∧ KubeUpdateApproval (approve now csr) (Err err)
            ∈ calls (Reconcile now r request)))
  ∧ (∀ res e, ends (Reconcile now r request) = Returned res e →
       Requeue res = false ∧ RequeueAfter res = 0%Z).
Proof.
  split.
  - split.
    + intros [res Hends].
      apply Reconcile_never_requeues in Hends as Hres. subst res.
      apply Reconcile_error_iff in Hends as [Hfetch|[sent Hin]]; [by left|].
      right.
      destruct (Reconcile_run now r request) as
        [e He|csr t Hc Hd|csr e Hc Hd Hr|csr cl Hc Hd Hr Hk|csr cl k Hc Hd Hr Hk];
        try (trace_member Hin; fail).
      exists csr, k. split; [done|]. split; [done|].
      trace_member Hin. injection Hin as _ Hres. rewrite <- Hres. set_solver.
    + intros Hcase. exists Result0. apply Reconcile_error_iff.
      destruct Hcase as [Hfetch|(csr & kube & _ & _ & Hin)]; [by left|].
      right. by exists (approve now csr).
  - intros res e Hends. by apply Reconcile_never_requeues in Hends as ->.
Qed.

(** X11. The reconciler [newReconciler] builds never panics when the kube
    client could be made: each of its runs returns, with success or an
    error. When the client could not be made, its runs panic exactly on the
    requests that are read, are not marked for deletion and whose cluster the
    registry yields, and return success or the error of the fetch on all
    others. *)
Theorem newReconciler_runs (mgr : Manager) (now : Time) (request : Request) :
  (∀ kube, ∃ err,
     ends (Reconcile now (newReconciler mgr (Ok kube)) request) = Returned Result0 err)
  ∧ (∀ why,
       (ends (Reconcile now (newReconciler mgr (Err why)) request) = Panicked ↔
          ∃ csr cluster,
            GetCSR (GetClient mgr) request = Ok csr
            ∧ DeletionTimestamp csr = None
            ∧ GetManagedCluster (GetClient mgr) (registryKey csr) = Ok cluster)
       ∧ (ends (Reconcile now (newReconciler mgr (Err why)) request) = Panicked
          ∨ ∃ err, ends (Reconcile now (newReconciler mgr (Err why)) request)
                   = Returned Result0 err)).
Proof.
  split.
  - intros kube.
    destruct (ends (Reconcile now (newReconciler mgr (Ok kube)) request))
      as [res err|] eqn:Hends.
    + apply Reconcile_never_requeues in Hends as ->. by exists err.
    + by apply Reconcile_panics_iff in Hends as [Hnil _].
  - intros why. split.
    + rewrite Reconcile_panics_iff. cbn. split; [by intros [_ ?]|done].
    + destruct (ends (Reconcile now (newReconciler mgr (Err why)) request))
        as [res err|] eqn:Hends; [|by left].
      apply Reconcile_never_requeues in Hends as ->. right. by exists err.
Qed.

Lemma approve_keeps_identity (now : Time) (csr : CertificateSigningRequest) :
  registryKey (approve now csr) = registryKey csr
  ∧ DeletionTimestamp (approve now csr) = DeletionTimestamp csr
  ∧ Name (approve now csr) = Name csr.
Proof. done. Qed.

(** X12. [Reconcile] is not idempotent by itself: run on the object an
    earlier run submitted, under the same conditions, it submits again, and
    the condition list then ends with two Approved entries, the earlier and
    the later one. It is the filter of X7, not [Reconcile], that keeps the
    second run from happening. *)
Theorem Reconcile_again_appends_again (now later : Time) (r : ReconcileCSR)
    (request : Request) (csr : CertificateSigningRequest) (cluster : ManagedCluster)
    (kube : KubeInterface) :
  DeletionTimestamp csr = None →
  GetCSR (client r) request = Ok (approve now csr) →
  GetManagedCluster (client r) (registryKey csr) = Ok cluster →
  kubeClient r = Some kube →
  ∃ sent,
    submitted (calls (Reconcile later r request)) = [sent]
    ∧ elems (Conditions sent)
      = elems (Conditions csr) ++ [approvedCondition now; approvedCondition later]
    ∧ csrPredicate (approve now csr) = false.
Proof.
  intros Hdel Hcsr Hreg Hkube.
  destruct (approve_keeps_identity now csr) as (Hkey & Hdel' & _).
  rewrite <- Hkey in Hreg. rewrite <- Hdel' in Hdel.
  rewrite (Reconcile_approves later r request (approve now csr) cluster kube
             Hcsr Hdel Hreg Hkube).
  exists (approve later (approve now csr)). split; [done|]. split.
  - cbn. by rewrite <- app_assoc.
  - apply csrPredicate_terminal, approve_terminal.
Qed.

Lemma Reconcile_again_appends_again_witness :
  ∃ sent,
    submitted (calls (Reconcile 11%Z
                        (Scenario.reconciler (approve Scenario.clock Scenario.pending))
                        Scenario.request)) = [sent]
    ∧ elems (Conditions sent)
      = elems (Conditions Scenario.pending)
        ++ [approvedCondition Scenario.clock; approvedCondition 11%Z]
    ∧ csrPredicate (approve Scenario.clock Scenario.pending) = false.
Proof.
  apply (Reconcile_again_appends_again Scenario.clock 11%Z
           (Scenario.reconciler (approve Scenario.clock Scenario.pending))
           Scenario.request Scenario.pending Scenario.alpha Scenario.accepting);
    by vm_compute.
Defined.

(** ** Properties of the registration *)

Lemma add_nil_iff (New : string → Manager → ReconcileCSR → result Controller)
    (mgr : Manager) (r : ReconcileCSR) :
  (add New mgr r).2 = None ↔
    ∃ c, New "csr-controller" mgr r = Ok c ∧ Watch c csrPredicateFuncs = None.
Proof.
  unfold add.
  destruct (New "csr-controller" mgr r) as [c|e] eqn:Hnew.
  - destruct (Watch c csrPredicateFuncs) as [e|] eqn:Hwatch; cbn.
    + split; [done|]. intros (c' & [= <-] & Hw). congruence.
    + split; [by exists c|done].
  - cbn. split; [done|by intros (c & ? & _)].
Qed.

(** X13. [add] reports the first thing that fails and nothing else: it
    returns nil exactly when [controller.New] made a controller and the watch
    started on it; when [controller.New] fails, its error is returned and no
    watch is attempted; when the watch fails, its error is returned. The
    controller is always asked for under the name csr-controller with the
    reconciler given. *)
Theorem add_reports_first_failure
    (New : string → Manager → ReconcileCSR → result Controller)
    (mgr : Manager) (r : ReconcileCSR) :
  ((add New mgr r).2 = None ↔
     ∃ c, New "csr-controller" mgr r = Ok c ∧ Watch c csrPredicateFuncs = None)
  ∧ (∀ err, New "csr-controller" mgr r = Err err →
       add New mgr r = ([CallControllerNew "csr-controller" r], Some err))
  ∧ (∀ c err, New "csr-controller" mgr r = Ok c → Watch c csrPredicateFuncs = Some err →
       add New mgr r = ([CallControllerNew "csr-controller" r; CallWatch], Some err))
  ∧ (∃ rest, (add New mgr r).1 = CallControllerNew "csr-controller" r :: rest).
Proof.
  split; [apply add_nil_iff|]. unfold add.
  destruct (New "csr-controller" mgr r) as [c|e] eqn:Hnew.
  - split; [done|]. split.
    + intros c' err [= <-] Hw. by rewrite Hw.
    + destruct (Watch c csrPredicateFuncs); by eexists.
  - split; [by intros err [= ->]|]. split; [done|by eexists].
Qed.

(** X14. [Add] does not say when the kube client could not be made: its
    result is that of [add] on a reconciler without one, so it returns nil
    whenever the controller and the watch can be set up. The reconciler it
    has then handed to the controller panics on every request that is read,
    is not marked for deletion and whose cluster the registry yields. *)
Theorem Add_hides_missing_client
    (New : string → Manager → ReconcileCSR → result Controller)
    (mgr : Manager) (why : error) :
  ((Add New mgr (Err why)).2 = None ↔
     ∃ c, New "csr-controller" mgr {| client := GetClient mgr; kubeClient := None |} = Ok c
          ∧ Watch c csrPredicateFuncs = None)
  ∧ (∀ name r, CallControllerNew name r ∈ (Add New mgr (Err why)).1 →
       kubeClient r = None
       ∧ ∀ now request csr cluster,
           GetCSR (client r) request = Ok csr →
           DeletionTimestamp csr = None →
           GetManagedCluster (client r) (registryKey csr) = Ok cluster →
           ends (Reconcile now r request) = Panicked).
Proof.
  unfold Add.
  change (newReconciler mgr (Err why))
    with {| client := GetClient mgr; kubeClient := None |}.
  set (r0 := {| client := GetClient mgr; kubeClient := None |}).
  split; [apply add_nil_iff|].
  intros name r Hin.
  assert (r = r0) as ->.
  { unfold add in Hin.
    destruct (New "csr-controller" mgr r0) as [c|e];
      [destruct (Watch c csrPredicateFuncs)|]; trace_member Hin; by injection Hin. }
  split; [done|]. intros now request csr cluster Hcsr Hdel Hreg.
  apply Reconcile_panics_iff. split; [done|]. by exists csr, cluster.
Qed.

(** The set-up succeeds without a kube client, and the first live request of
    a registered cluster brings the reconciler down. *)
Example Add_succeeds_then_Reconcile_panics :
  Add Setup.willing Setup.manager (Err (StatusOther "no configuration"))
  = ([CallControllerNew "csr-controller"
        (newReconciler Setup.manager (Err (StatusOther "no configuration")));
      CallWatch], None)
  ∧ ends (Reconcile Scenario.clock
            (newReconciler Setup.manager (Err (StatusOther "no configuration")))
            Scenario.request) = Panicked
  ∧ (Add Setup.deaf Setup.manager (Ok Scenario.accepting)).2
    = Some (StatusOther "no informer")
  ∧ Add Setup.unwilling Setup.manager (Ok Scenario.accepting)
    = ([CallControllerNew "csr-controller"
          (newReconciler Setup.manager (Ok Scenario.accepting))],
       Some (StatusOther "no controller")).
Proof. by vm_compute. Qed.
